(** * App.tsx: the state machine of the dashboard's root component

    A shallow embedding of [src/App.tsx]: the React state of [App], the setters
    its handlers call, the asynchronous [handleSearch] split at its [await],
    [renderContent], the theme initialiser and the theme effect.  The external
    collaborators (local storage, the session provider [db], the clock
    [Date.now], the discovery provider) appear as explicit parts of the world
    or as inputs of the events. *)

From Stdlib Require Import ZArith String Ascii List.
From Stdlib Require QArith_base.
From stdpp Require Import base tactics option list strings gmap pretty.


(** ** Data model *)

(** A number literal of the source that is not an integer, kept as the exact
    decimal fraction written in the code. *)
Definition decimal (mantissa : Z) (scale : positive) : QArith_base.Q :=
  QArith_base.Qmake mantissa scale.

Record Telemetry := {
  stress : Z;
  strain : Z;
  loadCapacity : Z;
  vibrationFrequency : QArith_base.Q
}.

(** Modelled from the spec: [./types] is not available; a timeline entry is
    opaque to this component, which only ever creates the empty timeline. *)
Inductive TimelineEvent := timelineEvent (payload : string).

Record Asset := {
  id : string;
  name : string;
  type : string;
  coordinates : QArith_base.Q * QArith_base.Q;
  riskScore : Z;
  age : Z;
  lastMaintenance : string;
  loadFactor : QArith_base.Q;
  climateImpact : QArith_base.Q;
  description : string;
  zone : string;
  timeline : list TimelineEvent;
  telemetry : Telemetry
}.

(** The user record returned by [db.getCurrentUser()]; only [role] is read. *)
Record User := { role : string }.

(** The provider response, with every optional link of
    [response.candidates?.[0]?.groundingMetadata?.groundingChunks]. *)
Record Maps := { title : option string }.
Record Chunk := { maps : option Maps }.
Record GroundingMetadata := { groundingChunks : option (list Chunk) }.
Record Candidate := { groundingMetadata : option GroundingMetadata }.
Record Response := { candidates : option (list Candidate) }.

(** What the awaited provider promise settles to. *)
Inductive Outcome :=
| Resolved (response : Response)
| Rejected.

(** ** React state of [App] and its setters *)

Record AppState := {
  currentTab : string;
  selectedAsset : option Asset;
  assets : list Asset;
  isSearching : bool;
  isSidebarOpen : bool;
  isDarkMode : bool
}.

(** One call of a [useState] setter.  [setAssets] is the only setter the
    source calls with an updater function. *)
Inductive Update :=
| setCurrentTab (tab : string)
| setSelectedAsset (a : option Asset)
| setAssets (updater : list Asset → list Asset)
| setIsSearching (b : bool)
| setIsSidebarOpen (b : bool)
| setIsDarkMode (b : bool).

Definition applyUpdate (s : AppState) (u : Update) : AppState :=
  match u with
  | setCurrentTab tab =>
      {| currentTab := tab; selectedAsset := selectedAsset s;
         assets := assets s; isSearching := isSearching s;
         isSidebarOpen := isSidebarOpen s; isDarkMode := isDarkMode s |}
  | setSelectedAsset a =>
      {| currentTab := currentTab s; selectedAsset := a;
         assets := assets s; isSearching := isSearching s;
         isSidebarOpen := isSidebarOpen s; isDarkMode := isDarkMode s |}
  | setAssets updater =>
      {| currentTab := currentTab s; selectedAsset := selectedAsset s;
         assets := updater (assets s); isSearching := isSearching s;
         isSidebarOpen := isSidebarOpen s; isDarkMode := isDarkMode s |}
  | setIsSearching b =>
      {| currentTab := currentTab s; selectedAsset := selectedAsset s;
         assets := assets s; isSearching := b;
         isSidebarOpen := isSidebarOpen s; isDarkMode := isDarkMode s |}
  | setIsSidebarOpen b =>
      {| currentTab := currentTab s; selectedAsset := selectedAsset s;
         assets := assets s; isSearching := isSearching s;
         isSidebarOpen := b; isDarkMode := isDarkMode s |}
  | setIsDarkMode b =>
      {| currentTab := currentTab s; selectedAsset := selectedAsset s;
         assets := assets s; isSearching := isSearching s;
         isSidebarOpen := isSidebarOpen s; isDarkMode := b |}
  end.

(** The setter calls of one handler run are applied in call order. *)
Definition dispatch (us : list Update) (s : AppState) : AppState :=
  foldl applyUpdate s us.

(** ** Theme: initialiser, effect, toggle *)

(** JavaScript truthiness of what [localStorage.getItem] returns: [null] and
    the empty string are falsy. *)
Definition truthy (v : option string) : bool :=
  match v with
  | None => false
  | Some s => negb (String.eqb s "")
  end.

Definition strictEq (v : option string) (s : string) : bool :=
  match v with
  | None => false
  | Some s' => String.eqb s' s
  end.

(** The lazy initialiser of [isDarkMode].  [hasWindow] is
    [typeof window !== 'undefined'], [prefersDark] is what
    [matchMedia('(prefers-color-scheme: dark)').matches] returns. *)
Definition initIsDarkMode (hasWindow : bool) (storage : gmap string string)
    (prefersDark : bool) : bool :=
  if hasWindow then
    strictEq (storage !! "theme") "dark"
    || (negb (truthy (storage !! "theme")) && prefersDark)
  else false.

(** The body of [useEffect(..., [isDarkMode])] on local storage. *)
Definition themeEffect (dark : bool) (storage : gmap string string)
    : gmap string string :=
  if dark then <["theme" := "dark"]> storage
  else <["theme" := "light"]> storage.

(** [toggleTheme] closes over the [isDarkMode] of the render it was created
    in. *)
Definition toggleTheme (rendered : AppState) : list Update :=
  [setIsDarkMode (negb (isDarkMode rendered))].

(** ** Discovery: [handleSearch] *)

(** The [contents] string sent to the provider. *)
Definition quote : string := String "034"%char "".

Definition prompt (query : string) : string :=
  "Locate significant Indian infrastructure assets matching: "
  +:+ quote +:+ query +:+ quote +:+ ".".

(** [`ai-${Date.now()}-${index}`]: both numbers print in decimal. *)
Definition assetId (now : Z) (index : nat) : string :=
  "ai-" +:+ pretty now +:+ "-" +:+ pretty index.

(** [chunk.maps.title || "Discovered Infra"]. *)
Definition titleOr (m : Maps) : string :=
  match title m with
  | Some t => if String.eqb t "" then "Discovered Infra" else t
  | None => "Discovered Infra"
  end.

Definition discovered (now : Z) (index : nat) (m : Maps) : Asset :=
  {| id := assetId now index;
     name := titleOr m;
     type := "Road";
     coordinates := (decimal 205937 10000, decimal 789629 10000);
     riskScore := 25;
     age := 5;
     lastMaintenance := "2023-12-01";
     loadFactor := decimal 75 10;
     climateImpact := decimal 60 10;
     description := "AI-grounded infrastructure discovery via Google Maps.";
     zone := "Pan-India";
     timeline := [];
     telemetry := {| stress := 10; strain := 50; loadCapacity := 100000;
                     vibrationFrequency := decimal 45 10 |} |}.

(** The [chunks.forEach((chunk, index) => ...)] loop from position [index]
    on.  [now k] is what [Date.now()] returns inside the callback of the
    chunk at position [k]. *)
Fixpoint synthesize (now : nat → Z) (index : nat) (chunks : list Chunk)
    : list Asset :=
  match chunks with
  | [] => []
  | chunk :: rest =>
      match maps chunk with
      | Some m => discovered (now index) index m
                  :: synthesize now (S index) rest
      | None => synthesize now (S index) rest
      end
  end.

Definition chunksOf (response : Response) : option (list Chunk) :=
  cs ← candidates response;
  c ← cs !! 0%nat;
  gm ← groundingMetadata c;
  groundingChunks gm.

(** The part of the [try] block after the [await], for a resolved promise. *)
Definition merge (response : Response) (now : nat → Z) : list Update :=
  match chunksOf response with
  | Some chunks =>
      if (0 <? length chunks)%nat then
        let newAssets := synthesize now 0 chunks in
        if (0 <? length newAssets)%nat then
          [ setAssets (λ prev, prev ++ newAssets);
            setSelectedAsset (newAssets !! 0%nat);
            setCurrentTab "map" ]
        else []
      else []
  | None => []
  end.

(** [handleSearch] up to the [await]: the setter call made before the
    promise is created. *)
Definition handleSearch_begin : list Update := [setIsSearching true].

(** [handleSearch] from the [await] on: the rest of [try] when the promise
    resolved, the [catch] (which only logs) when it rejected, then
    [finally]. *)
Definition handleSearch_settle (o : Outcome) (now : nat → Z) : list Update :=
  match o with
  | Resolved response => merge response now ++ [setIsSearching false]
  | Rejected => [setIsSearching false]
  end.

(** ** [renderContent] *)

(** The page element chosen by [renderContent], with the props that carry
    state or handlers of [App]. *)
Inductive Page :=
| LandingPage (onExplore onHowItWorks : list Update) (dark : bool)
| MapPage (shown : list Asset) (selected : option Asset)
    (onSelectAsset : Asset → list Update) (searching dark : bool)
    (onClose : list Update)
| AnalysisPage
| NewsPage
| GovPortalPage (onSelectAsset : Asset → list Update)
| LoginPage (onLoginSuccess : User → list Update)
| AdminDashboardPage
| InitiativesPage
| SimulatorPage (dark : bool)
| ReportPage.

(** [user?.role === 'admin']. *)
Definition isAdmin (user : option User) : bool :=
  match user with
  | Some u => String.eqb (role u) "admin"
  | None => false
  end.

Definition landing (s : AppState) : Page :=
  LandingPage [setCurrentTab "map"] [setCurrentTab "analysis"] (isDarkMode s).

Definition renderContent (user : option User) (s : AppState) : Page :=
  if String.eqb (currentTab s) "home" then landing s
  else if String.eqb (currentTab s) "map" then
    MapPage (assets s) (selectedAsset s) (λ a, [setSelectedAsset (Some a)])
      (isSearching s) (isDarkMode s) [setSelectedAsset None]
  else if String.eqb (currentTab s) "analysis" then AnalysisPage
  else if String.eqb (currentTab s) "news" then NewsPage
  else if String.eqb (currentTab s) "gov" then
    GovPortalPage (λ a, [setSelectedAsset (Some a); setCurrentTab "map"])
  else if String.eqb (currentTab s) "login" then
    LoginPage (λ u, [setCurrentTab
                       (if String.eqb (role u) "admin" then "admin"
                        else "home")])
  else if String.eqb (currentTab s) "admin" then
    if isAdmin user then AdminDashboardPage
    else LoginPage (λ _, [setCurrentTab "admin"])
  else if String.eqb (currentTab s) "initiatives" then InitiativesPage
  else if String.eqb (currentTab s) "simulator" then
    SimulatorPage (isDarkMode s)
  else if String.eqb (currentTab s) "report" then ReportPage
  else landing s.

(** The footer condition,
    [['home', ...].includes(currentTab)]. *)
Definition showsFooter (s : AppState) : bool :=
  bool_decide
    (currentTab s ∈ ["home"; "analysis"; "news"; "initiatives"; "report";
                     "gov"]).

(** ** The component in its world *)

(** The React state together with the collaborators the component reads and
    writes: local storage, the [dark] class of the document element, what
    [db.getCurrentUser()] currently returns, and the provider calls that
    were issued and have not settled yet (their [contents] strings, oldest
    first). *)
Record World := {
  state : AppState;
  localStorage : gmap string string;
  documentDark : bool;
  currentUser : option User;
  inFlight : list string
}.

(** Commit the state produced by a handler run and re-render; the theme
    effect runs when its dependency [isDarkMode] changed. *)
Definition commit (w : World) (s' : AppState) : World :=
  if Bool.eqb (isDarkMode s') (isDarkMode (state w)) then
    {| state := s'; localStorage := localStorage w;
       documentDark := documentDark w; currentUser := currentUser w;
       inFlight := inFlight w |}
  else
    {| state := s';
       localStorage := themeEffect (isDarkMode s') (localStorage w);
       documentDark := isDarkMode s'; currentUser := currentUser w;
       inFlight := inFlight w |}.

Definition withInFlight (calls : list string) (w : World) : World :=
  {| state := state w; localStorage := localStorage w;
     documentDark := documentDark w; currentUser := currentUser w;
     inFlight := calls |}.

Definition withUser (user : option User) (w : World) : World :=
  {| state := state w; localStorage := localStorage w;
     documentDark := documentDark w; currentUser := user;
     inFlight := inFlight w |}.

(** First render in a browser: the [useState] initialisers, then the theme
    effect of the mount. *)
Definition mount (initialAssets : list Asset) (storage : gmap string string)
    (prefersDark : bool) (user : option User) : World :=
  {| state := {| currentTab := "home"; selectedAsset := None;
                 assets := initialAssets; isSearching := false;
                 isSidebarOpen := false;
                 isDarkMode := initIsDarkMode true storage prefersDark |};
     localStorage :=
       themeEffect (initIsDarkMode true storage prefersDark) storage;
     documentDark := initIsDarkMode true storage prefersDark;
     currentUser := user;
     inFlight := [] |}.

(** What can happen to the mounted component: a child invokes one of the
    handlers [App] passed to it, the session provider changes, or an issued
    provider call settles. *)
Inductive Event :=
| TabChange (tab : string)
| ToggleTheme
| OpenSidebar
| CloseSidebar
| Explore
| HowItWorks
| SelectAsset (a : Asset)
| ClosePanel
| GovSelectAsset (a : Asset)
| LoginSuccess (u : User)
| SessionChange (user : option User)
| Search (query : string)
| SearchThrew (query : string)
| SearchSettled (call : nat) (o : Outcome) (now : nat → Z).

(** One event.  Handlers are the closures of the latest render.
    [SearchThrew] is a [handleSearch] call whose provider call throws before
    a promise exists, so [catch] and [finally] run in the same turn;
    [SearchSettled call o now] resumes the [handleSearch] run that issued the
    in-flight call at position [call], and does nothing when there is no
    such call. *)
Definition step (e : Event) (w : World) : World :=
  match e with
  | TabChange tab => commit w (dispatch [setCurrentTab tab] (state w))
  | ToggleTheme => commit w (dispatch (toggleTheme (state w)) (state w))
  | OpenSidebar => commit w (dispatch [setIsSidebarOpen true] (state w))
  | CloseSidebar => commit w (dispatch [setIsSidebarOpen false] (state w))
  | Explore => commit w (dispatch [setCurrentTab "map"] (state w))
  | HowItWorks => commit w (dispatch [setCurrentTab "analysis"] (state w))
  | SelectAsset a => commit w (dispatch [setSelectedAsset (Some a)] (state w))
  | ClosePanel => commit w (dispatch [setSelectedAsset None] (state w))
  | GovSelectAsset a =>
      commit w
        (dispatch [setSelectedAsset (Some a); setCurrentTab "map"] (state w))
  | LoginSuccess u =>
      match renderContent (currentUser w) (state w) with
      | LoginPage onLoginSuccess =>
          commit w (dispatch (onLoginSuccess u) (state w))
      | _ => w
      end
  | SessionChange user => withUser user w
  | Search query =>
      commit (withInFlight (inFlight w ++ [prompt query]) w)
        (dispatch handleSearch_begin (state w))
  | SearchThrew query =>
      commit w
        (dispatch (handleSearch_begin ++ handleSearch_settle Rejected (λ _, 0%Z))
           (state w))
  | SearchSettled call o now =>
      match inFlight w !! call with
      | Some _ =>
          commit (withInFlight (delete call (inFlight w)) w)
            (dispatch (handleSearch_settle o now) (state w))
      | None => w
      end
  end.

Definition run (es : list Event) (w : World) : World :=
  foldl (λ w e, step e w) w es.

(** A whole [handleSearch] call with nothing in between: issue, then settle
    that very call. *)
Definition discover (query : string) (o : Outcome) (now : nat → Z)
    (w : World) : World :=
  step (SearchSettled (length (inFlight w)) o now) (step (Search query) w).

(** The grounding payloads [handleSearch] finds in what the promise settled
    to: those of the chunks of the first candidate. *)
Definition usable (o : Outcome) : list Maps :=
  match o with
  | Resolved response =>
      match chunksOf response with
      | Some chunks => omap maps chunks
      | None => []
      end
  | Rejected => []
  end.

(** ** Conditions on how the component is driven *)

(** [disciplined P es w]: along the run of [es] from [w], every event [e]
    satisfies [P e] in the world it occurs in. *)
Fixpoint disciplined (P : Event → World → Prop) (es : list Event) (w : World)
    : Prop :=
  match es with
  | [] => True
  | e :: es' => P e w ∧ disciplined P es' (step e w)
  end.

(** The caller invokes [handleSearch] only while the [isSearching] it was
    rendered with is [false]. *)
Definition gatedSearch (e : Event) (w : World) : Prop :=
  match e with
  | Search _ | SearchThrew _ => isSearching (state w) = false
  | _ => True
  end.

(** The callers of the selection handlers pass assets of the store. *)
Definition selectsFromStore (e : Event) (w : World) : Prop :=
  match e with
  | SelectAsset a | GovSelectAsset a => a ∈ assets (state w)
  | _ => True
  end.

(** While a call is resumed, [Date.now()] returns no value that is the
    timestamp of an id already in the store. *)
Definition freshClock (e : Event) (w : World) : Prop :=
  match e with
  | SearchSettled _ _ now =>
      ∀ k index, assetId (now k) index ∉ id <$> assets (state w)
  | _ => True
  end.

(** The selection is none or an asset of the store. *)
Definition selectionValid (s : AppState) : Prop :=
  match selectedAsset s with
  | Some a => a ∈ assets s
  | None => True
  end.

(** The flag [isSearching] is set exactly while one provider call is
    outstanding, and there is never more than one. *)
Definition flagCountsCalls (w : World) : Prop :=
  length (inFlight w) = if isSearching (state w) then 1%nat else 0%nat.

(** No character of the string is the separator [-]. *)
Fixpoint dashFree (s : string) : Prop :=
  match s with
  | EmptyString => True
  | String c s' => c ≠ "-"%char ∧ dashFree s'
  end.

(** ** Observations on worlds and runs *)

(** What the theme effect establishes: the [dark] class of the document and
    the stored theme say what [isDarkMode] says. *)
Definition themeSynced (w : World) : Prop :=
  documentDark w = isDarkMode (state w)
  ∧ localStorage w !! "theme"
    = Some (if isDarkMode (state w) then "dark" else "light").

(** How often [toggleTheme] is called in a sequence of events. *)
Fixpoint toggles (es : list Event) : nat :=
  match es with
  | [] => 0
  | ToggleTheme :: es' => S (toggles es')
  | _ :: es' => toggles es'
  end.

(** The [newAssets] array [handleSearch] has built when it reaches the test
    [newAssets.length > 0], empty where it does not get there. *)
Definition batch (o : Outcome) (now : nat → Z) : list Asset :=
  match o with
  | Resolved response =>
      match chunksOf response with
      | Some chunks => synthesize now 0 chunks
      | None => []
      end
  | Rejected => []
  end.

(** The batches of the calls that settle along the run of [es] from [w], in
    the order in which they settle. *)
Fixpoint batches (es : list Event) (w : World) : list Asset :=
  match es with
  | [] => []
  | e :: es' =>
      match e with
      | SearchSettled call o now =>
          match inFlight w !! call with
          | Some _ => batch o now
          | None => []
          end
      | _ => []
      end ++ batches es' (step e w)
  end.

(** The tabs [renderContent] has a case for. *)
Definition knownTabs : list string :=
  [ "home"; "map"; "analysis"; "news"; "gov"; "login"; "admin";
    "initiatives"; "simulator"; "report" ].

(** ** Concrete inputs for the examples *)

Definition grounded (t : option string) : Chunk :=
  {| maps := Some {| title := t |} |}.

Definition ungrounded : Chunk := {| maps := None |}.

Definition responseWith (chunks : list Chunk) : Response :=
  {| candidates :=
       Some [ {| groundingMetadata :=
                   Some {| groundingChunks := Some chunks |} |} ] |}.

(** A clock that does not advance. *)
Definition sameInstant : nat → Z := λ _, 1700000000000%Z.

(** A browser without a stored theme, a light system theme, no session and
    an empty store. *)
Definition started : World := mount [] ∅ false None.

(** ... in which one search was issued and has not settled. *)
Definition busy : World := step (Search "bridges") started.

(** An asset that was never put into any store. *)
Definition stray : Asset := discovered 0 0 {| title := None |}.

(** Two searches issued one after the other whose responses arrive in the
    same millisecond. *)
Definition twoCalls : list Event :=
  [ Search "bridges"; Search "dams";
    SearchSettled 0 (Resolved (responseWith [grounded (Some "Setu")]))
      sameInstant;
    SearchSettled 0 (Resolved (responseWith [grounded (Some "Bandh")]))
      sameInstant ].

(** An asset as the initial store may hold it, with an id of its own. *)
Definition surveyed : Asset :=
  {| id := "br-001";
     name := "Howrah Bridge";
     type := "Bridge";
     coordinates := (decimal 225851 10000, decimal 883468 10000);
     riskScore := 40;
     age := 80;
     lastMaintenance := "2022-05-01";
     loadFactor := decimal 82 10;
     climateImpact := decimal 55 10;
     description := "Cantilever bridge over the Hooghly.";
     zone := "East";
     timeline := [];
     telemetry := {| stress := 35; strain := 120; loadCapacity := 60000;
                     vibrationFrequency := decimal 21 10 |} |}.

(** A clock that reads one millisecond later. *)
Definition laterInstant : nat → Z := λ _, 1700000000001%Z.

(** Two discoveries, one after the other, into a store that holds an asset;
    the second response is handled one millisecond after the first. *)
Definition twoDiscoveries : list Event :=
  [ Search "bridges";
    SearchSettled 0
      (Resolved (responseWith [grounded (Some "Setu"); grounded None]))
      sameInstant;
    Search "dams";
    SearchSettled 0 (Resolved (responseWith [grounded (Some "Bandh")]))
      laterInstant ].


(** The state after a tab was requested that [renderContent] has no case
    for. *)
Definition offTab : AppState :=
  applyUpdate (state started) (setCurrentTab "settings").

(** * Properties *)

(** ** Bookkeeping: what [commit] and the setters touch *)

Section bookkeeping.
Implicit Types (w : World) (s : AppState).

Lemma state_commit w s : state (commit w s) = s.
Proof. unfold commit. by destruct (Bool.eqb _ _). Qed.

Lemma inFlight_commit w s : inFlight (commit w s) = inFlight w.
Proof. unfold commit. by destruct (Bool.eqb _ _). Qed.

Lemma currentUser_commit w s : currentUser (commit w s) = currentUser w.
Proof. unfold commit. by destruct (Bool.eqb _ _). Qed.

Lemma dispatch_app us1 us2 s :
  dispatch (us1 ++ us2) s = dispatch us2 (dispatch us1 s).
Proof. unfold dispatch. by rewrite foldl_app. Qed.

Lemma run_app es1 es2 w : run (es1 ++ es2) w = run es2 (run es1 w).
Proof. unfold run. by rewrite foldl_app. Qed.

Lemma run_snoc es e w : run (es ++ [e]) w = step e (run es w).
Proof. by rewrite run_app. Qed.
End bookkeeping.

(** ** The [forEach] loop *)

Lemma synthesize_names now k chunks :
  name <$> synthesize now k chunks = titleOr <$> omap maps chunks.
Proof.
  revert k. induction chunks as [|c cs IH]; intros k; simpl; [done|].
  destruct (maps c); simpl; by rewrite IH.
Qed.

Lemma synthesize_length now k chunks :
  length (synthesize now k chunks) = length (omap maps chunks).
Proof.
  rewrite <-(length_fmap name), synthesize_names. apply length_fmap.
Qed.

Lemma positive_length {A} (l : list A) : (0 <? length l)%nat = false → l = [].
Proof. by destruct l. Qed.

(** Without a usable payload the code after the [await] calls no setter. *)
Lemma merge_nothing response now :
  usable (Resolved response) = [] → merge response now = [].
Proof.
  unfold usable, merge. destruct (chunksOf response) as [chunks|]; [|done].
  intros Hnone. destruct (0 <? length chunks)%nat; [|done].
  cbv zeta. by rewrite synthesize_length, Hnone.
Qed.

(** With one, it appends the batch, selects its head and goes to the map. *)
Lemma merge_batch response now chunks :
  chunksOf response = Some chunks →
  omap maps chunks ≠ [] →
  merge response now =
    [ setAssets (λ prev, prev ++ synthesize now 0 chunks);
      setSelectedAsset (synthesize now 0 chunks !! 0%nat);
      setCurrentTab "map" ].
Proof.
  intros Hchunks Hsome. unfold merge. rewrite Hchunks.
  destruct (0 <? length chunks)%nat eqn:Hlen.
  - destruct (0 <? length (synthesize now 0 chunks))%nat eqn:Hnew; [done|].
    apply positive_length in Hnew. destruct Hsome.
    apply nil_length_inv. by rewrite <-(synthesize_length now 0), Hnew.
  - apply positive_length in Hlen. by subst.
Qed.

(** [usable] decides between the two. *)
Lemma merge_cases response now :
  merge response now = [] ∨
  ∃ chunks, chunksOf response = Some chunks ∧ omap maps chunks ≠ [] ∧
    merge response now =
      [ setAssets (λ prev, prev ++ synthesize now 0 chunks);
        setSelectedAsset (synthesize now 0 chunks !! 0%nat);
        setCurrentTab "map" ].
Proof.
  destruct (chunksOf response) as [chunks|] eqn:Hchunks.
  - destruct (omap maps chunks) as [|m ms] eqn:Hpay.
    + left. apply merge_nothing. unfold usable. by rewrite Hchunks.
    + right. exists chunks. split; [done|]. rewrite Hpay. split; [done|].
      apply merge_batch; [done|]. by rewrite Hpay.
  - left. unfold merge. by rewrite Hchunks.
Qed.

(** ** The two halves of [handleSearch] as steps *)

Lemma state_search w query :
  state (step (Search query) w) = dispatch handleSearch_begin (state w).
Proof. simpl. apply state_commit. Qed.

Lemma inFlight_search w query :
  inFlight (step (Search query) w) = inFlight w ++ [prompt query].
Proof. simpl. by rewrite inFlight_commit. Qed.

Lemma state_settled w call o now :
  (call < length (inFlight w))%nat →
  state (step (SearchSettled call o now) w)
  = dispatch (handleSearch_settle o now) (state w).
Proof.
  intros [x Hx]%lookup_lt_is_Some. simpl. rewrite Hx. apply state_commit.
Qed.

Lemma inFlight_settled w call o now :
  (call < length (inFlight w))%nat →
  inFlight (step (SearchSettled call o now) w) = delete call (inFlight w).
Proof.
  intros [x Hx]%lookup_lt_is_Some. simpl. rewrite Hx.
  by rewrite inFlight_commit.
Qed.

Lemma state_discover w query o now :
  state (discover query o now w)
  = dispatch (handleSearch_settle o now)
      (dispatch handleSearch_begin (state w)).
Proof.
  unfold discover. rewrite state_settled, state_search; [done|].
  rewrite inFlight_search, length_app. simpl. lia.
Qed.

(** Case analysis on what the resumed [handleSearch] does. *)
Ltac settle_cases o now :=
  let response := fresh "response" in
  let chunks := fresh "chunks" in
  let Hchunks := fresh "Hchunks" in
  let Hpay := fresh "Hpay" in
  destruct o as [response|]; simpl;
  [ destruct (merge_cases response now)
      as [->|(chunks & Hchunks & Hpay & ->)]; simpl
  | ].



(** C3: when the chunks of the response hold at least one grounding
    payload, the completed call has appended one new asset per such chunk,
    in response order and named after it, behind the untouched old entries;
    the selection is the first appended asset and the view is the map. *)
Theorem usable_discovery_appends_selects_and_shows_map
    w call response chunks now :
  chunksOf response = Some chunks →
  (∃ c, c ∈ chunks ∧ is_Some (maps c)) →
  (call < length (inFlight w))%nat →
  ∃ first rest,
    synthesize now 0 chunks = first :: rest
    ∧ name <$> (first :: rest) = titleOr <$> omap maps chunks
    ∧ assets (state (step (SearchSettled call (Resolved response) now) w))
      = assets (state w) ++ first :: rest
    ∧ selectedAsset
        (state (step (SearchSettled call (Resolved response) now) w))
      = Some first
    ∧ currentTab (state (step (SearchSettled call (Resolved response) now) w))
      = "map".
Proof.
  intros Hchunks (c & Hin & [m Hm]) Hcall.
  assert (omap maps chunks ≠ []) as Hpay.
  { intros Hnil. assert (m ∈ omap maps chunks) as Hm'.
    { apply list_elem_of_omap. eauto. }
    rewrite Hnil in Hm'. by apply not_elem_of_nil in Hm'. }
  rewrite state_settled by done. simpl.
  rewrite (merge_batch response now chunks Hchunks Hpay). simpl.
  pose proof (synthesize_names now 0 chunks) as Hnames.
  destruct (synthesize now 0 chunks) as [|first rest] eqn:Hnew.
  - destruct Hpay. symmetry in Hnames. by apply fmap_nil_inv in Hnames.
  - by exists first, rest.
Qed.

(** ** The store only grows *)

(** Both [LoginPage] elements of [renderContent] pass a callback that only
    sets the current tab. *)
Lemma login_callbacks user s onLoginSuccess :
  renderContent user s = LoginPage onLoginSuccess →
  ∀ u, ∃ tab, onLoginSuccess u = [setCurrentTab tab].
Proof.
  unfold renderContent, landing.
  repeat case_match; intros; simplify_eq; eauto.
Qed.

(** The only step that changes the store is the settling of a call whose
    response holds a usable payload, and it appends the new batch. *)
Lemma step_assets e w :
  assets (state (step e w)) = assets (state w)
  ∨ ∃ call response now chunks,
      e = SearchSettled call (Resolved response) now
      ∧ chunksOf response = Some chunks
      ∧ omap maps chunks ≠ []
      ∧ assets (state (step e w)) = assets (state w) ++ synthesize now 0 chunks.
Proof.
  destruct e as [| | | | | | | | |u| | | |call o now]; simpl;
    rewrite ?state_commit; auto.
  - destruct (renderContent _ _) eqn:Hpage; auto.
    destruct (login_callbacks _ _ _ Hpage u) as [tab ->].
    rewrite state_commit. auto.
  - destruct (inFlight w !! call); [|auto]. rewrite state_commit.
    settle_cases o now; auto.
    right. by exists call, response, now, chunks.
Qed.

(** C8: over every sequence of operations of the component the store keeps
    all its entries, unchanged and in place, as a prefix of the later store
    (so every asset present before is present after), and a single operation
    either leaves the store as it is or is the completion of a discovery
    that appends its batch at the end. *)
Theorem store_only_grows_by_append :
  (∀ es w, assets (state w) `prefix_of` assets (state (run es w)))
  ∧ (∀ es w a, a ∈ assets (state w) → a ∈ assets (state (run es w)))
  ∧ (∀ e w,
       assets (state (step e w)) = assets (state w)
       ∨ ∃ call response now chunks,
           e = SearchSettled call (Resolved response) now
           ∧ chunksOf response = Some chunks
           ∧ assets (state (step e w))
             = assets (state w) ++ synthesize now 0 chunks).
Proof.
  assert (∀ es w, assets (state w) `prefix_of` assets (state (run es w)))
    as Hprefix.
  { induction es as [|e es IH]; intros w; [done|].
    change (run (e :: es) w) with (run es (step e w)).
    etrans; [|apply IH].
    destruct (step_assets e w) as [->|(?&?&?&?&_&_&_&->)]; [done|].
    by apply prefix_app_r. }
  split_and!; [done| |].
  - intros es w a Ha. destruct (Hprefix es w) as [added ->].
    apply elem_of_app. by left.
  - intros e w.
    destruct (step_assets e w) as [?|(call&response&now&chunks&?&?&_&?)];
      [by left|right].
    by exists call, response, now, chunks.
Qed.

(** ** Theme *)

Lemma state_toggle w :
  state (step ToggleTheme w)
  = applyUpdate (state w) (setIsDarkMode (negb (isDarkMode (state w)))).
Proof. simpl. apply state_commit. Qed.


Lemma themeEffect_lookup dark storage :
  themeEffect dark storage !! "theme"
  = Some (if dark then "dark" else "light").
Proof. unfold themeEffect. destruct dark; by rewrite lookup_insert_eq. Qed.



(** ** The admin view *)

Lemma state_tab_change w tab :
  state (step (TabChange tab) w) = applyUpdate (state w) (setCurrentTab tab).
Proof. simpl. apply state_commit. Qed.

Lemma currentUser_tab_change w tab :
  currentUser (step (TabChange tab) w) = currentUser w.
Proof. simpl. apply currentUser_commit. Qed.

Lemma isAdmin_false user :
  user = None ∨ (∃ u, user = Some u ∧ role u ≠ "admin") → isAdmin user = false.
Proof.
  intros [->|(u & -> & Hrole)]; [done|]. simpl. by apply String.eqb_neq.
Qed.

(** C6, as the code has it: a request for the admin view always makes
    [admin] the current tab; the session is consulted when that tab is
    rendered, which shows the login page without a user or for a role other
    than admin, and the admin dashboard for the admin role. *)
Theorem admin_tab_is_gated_at_render w :
  currentTab (state (step (TabChange "admin") w)) = "admin"
  ∧ (currentUser w = None ∨ (∃ u, currentUser w = Some u ∧ role u ≠ "admin") →
     renderContent (currentUser (step (TabChange "admin") w))
       (state (step (TabChange "admin") w))
     = LoginPage (λ _, [setCurrentTab "admin"]))
  ∧ (∀ u, currentUser w = Some u → role u = "admin" →
     renderContent (currentUser (step (TabChange "admin") w))
       (state (step (TabChange "admin") w))
     = AdminDashboardPage).
Proof.
  rewrite state_tab_change, currentUser_tab_change. split_and!.
  - done.
  - intros Hno%isAdmin_false. unfold renderContent. simpl. by rewrite Hno.
  - intros u -> Hrole. unfold renderContent. simpl.
    apply String.eqb_eq in Hrole. by rewrite Hrole.
Qed.

(** C10: a login that succeeds on the login page shown in place of the admin
    dashboard makes [admin] the current tab whatever the role of the user who
    logged in, and for a role other than admin the next render shows that
    login page again; a login that succeeds on the login view goes to
    [admin] for the admin role and to [home] for every other role. *)
Theorem login_success_by_origin :
  (∀ w u, currentTab (state w) = "admin" → isAdmin (currentUser w) = false →
     currentTab (state (step (LoginSuccess u) w)) = "admin")
  ∧ (∀ w u, currentTab (state w) = "admin" → isAdmin (currentUser w) = false →
       role u ≠ "admin" →
       renderContent (Some u) (state (step (LoginSuccess u) w))
       = LoginPage (λ _, [setCurrentTab "admin"]))
  ∧ (∀ w u, currentTab (state w) = "login" →
       currentTab (state (step (LoginSuccess u) w))
       = if String.eqb (role u) "admin" then "admin" else "home").
Proof.
  split_and!.
  - intros w u Htab Hno. simpl. unfold renderContent. rewrite Htab, Hno.
    simpl. by rewrite state_commit.
  - intros w u Htab Hno Hrole. simpl. unfold renderContent at 2.
    rewrite Htab, Hno. simpl. rewrite state_commit.
    apply String.eqb_neq in Hrole. unfold renderContent. simpl.
    by rewrite Hrole.
  - intros w u Htab. simpl. unfold renderContent. rewrite Htab. simpl.
    by rewrite state_commit.
Qed.

(** ** Selection *)

Lemma disciplined_app P es1 es2 w :
  disciplined P (es1 ++ es2) w
  ↔ disciplined P es1 w ∧ disciplined P es2 (run es1 w).
Proof.
  revert w. induction es1 as [|e es1 IH]; intros w; simpl; [tauto|].
  rewrite IH. change (run (e :: es1) w) with (run es1 (step e w)). tauto.
Qed.

(** An invariant kept by every step that satisfies [P] holds along every
    disciplined run. *)
Lemma disciplined_invariant (P : Event → World → Prop) (I : World → Prop) :
  (∀ e w, I w → P e w → I (step e w)) →
  ∀ es w, I w → disciplined P es w → I (run es w).
Proof.
  intros Hstep. induction es as [|e es IH]; intros w Hw Hes; [done|].
  destruct Hes as [He Hes]. change (run (e :: es) w) with (run es (step e w)).
  apply IH; auto.
Qed.

Lemma selectionValid_step e w :
  selectionValid (state w) → selectsFromStore e w →
  selectionValid (state (step e w)).
Proof.
  unfold selectionValid.
  destruct e as [| | | | | | | | |u| | | |call o now]; simpl;
    rewrite ?state_commit; simpl; auto.
  - destruct (renderContent _ _) eqn:Hpage; auto.
    destruct (login_callbacks _ _ _ Hpage u) as [tab ->].
    by rewrite state_commit.
  - destruct (inFlight w !! call); [|auto]. rewrite state_commit.
    settle_cases o now; auto.
    + intros Hsel _.
      destruct (synthesize now 0 chunks) as [|first rest]; simpl; [done|].
      apply elem_of_app. right. apply elem_of_cons. by left.
Qed.

(** C7, as the code has it: selecting an asset is never rejected, the
    selection becomes the asset passed whether or not the store holds it;
    the selection is none or an asset of the store at every point of a run
    in which the callers pass assets of the store. *)
Theorem select_is_unchecked_and_valid_for_store_assets :
  (∀ w a, selectedAsset (state (step (SelectAsset a) w)) = Some a
          ∧ selectedAsset (state (step (GovSelectAsset a) w)) = Some a
          ∧ selectedAsset (state (step ClosePanel w)) = None)
  ∧ (∀ es w, selectionValid (state w) → disciplined selectsFromStore es w →
       selectionValid (state (run es w))).
Proof.
  split.
  - intros w a. simpl. by rewrite !state_commit.
  - intros es w Hw Hes.
    by apply (disciplined_invariant selectsFromStore
                (λ w, selectionValid (state w)) selectionValid_step es w).
Qed.

(** ** In-flight calls *)

Lemma flagCountsCalls_step e w :
  flagCountsCalls w → gatedSearch e w → flagCountsCalls (step e w).
Proof.
  unfold flagCountsCalls.
  destruct e as [| | | | | | | | |u| | | |call o now]; simpl;
    rewrite ?inFlight_commit, ?state_commit; simpl; auto.
  - destruct (renderContent _ _) eqn:Hpage; auto.
    destruct (login_callbacks _ _ _ Hpage u) as [tab ->].
    by rewrite inFlight_commit, state_commit.
  - intros Hw Hidle. rewrite Hidle in Hw. rewrite length_app, Hw. done.
  - intros Hw Hidle. by rewrite Hidle in Hw.
  - intros Hw _. destruct (inFlight w !! call) as [x|] eqn:Hcall; [|done].
    rewrite inFlight_commit, state_commit. simpl.
    assert (isSearching (dispatch (handleSearch_settle o now) (state w))
            = false) as -> by (by settle_cases o now).
    rewrite length_delete by eauto. apply lookup_lt_Some in Hcall.
    destruct (isSearching (state w)); lia.
Qed.

(** C1, as the code has it: [handleSearch] does not look at [isSearching];
    every call sets the flag and issues one more provider call, also while
    the flag is set.  At most one provider call is outstanding at any point
    of a run in which the caller invokes [handleSearch] only while the flag
    is [false]. *)
Theorem search_is_unguarded_and_single_when_gated :
  (∀ w query,
     inFlight (step (Search query) w) = inFlight w ++ [prompt query]
     ∧ isSearching (state (step (Search query) w)) = true)
  ∧ (∀ initialAssets storage prefersDark user es,
       disciplined gatedSearch es (mount initialAssets storage prefersDark user) →
       (length (inFlight (run es (mount initialAssets storage prefersDark user)))
        ≤ 1)%nat).
Proof.
  split.
  - intros w query. by rewrite inFlight_search, state_search.
  - intros initialAssets storage prefersDark user es Hes.
    assert (flagCountsCalls (mount initialAssets storage prefersDark user))
      as Hmount by done.
    pose proof (disciplined_invariant gatedSearch flagCountsCalls
                  flagCountsCalls_step es _ Hmount Hes) as Hinv.
    unfold flagCountsCalls in Hinv. rewrite Hinv.
    destruct (isSearching _); lia.
Qed.

(** ** Generated ids *)

Lemma dashFree_pretty_N_go x s : dashFree s → dashFree (pretty_N_go x s).
Proof.
  revert s. induction (N.lt_wf_0 x) as [x _ IH]; intros s Hs.
  assert (x = 0 ∨ 0 < x)%N as [->|Hpos] by lia.
  - by rewrite pretty_N_go_0.
  - rewrite pretty_N_go_step by done. apply IH.
    { by apply N.div_lt. }
    split; [|done]. unfold pretty_N_char. by repeat case_match.
Qed.

Lemma dashFree_pretty_nat (n : nat) : dashFree (pretty n).
Proof.
  unfold pretty, pretty_nat, pretty, pretty_N. case_decide.
  - by split.
  - by apply dashFree_pretty_N_go.
Qed.

Lemma append_cons c s t : String c s +:+ t = String c (s +:+ t).
Proof. done. Qed.

Lemma append_empty t : "" +:+ t = t.
Proof. done. Qed.

Lemma dash_in_the_middle s d : ¬ dashFree (s +:+ "-" +:+ d).
Proof.
  induction s as [|c s IH].
  - rewrite append_empty, append_cons. by intros [? _].
  - rewrite append_cons. simpl. tauto.
Qed.

(** The last separator of a string splits it in one way only. *)
Lemma split_at_last_dash s1 s2 d1 d2 :
  dashFree d1 → dashFree d2 →
  s1 +:+ "-" +:+ d1 = s2 +:+ "-" +:+ d2 → s1 = s2 ∧ d1 = d2.
Proof.
  intros Hd1 Hd2. revert s2.
  induction s1 as [|c s1 IH]; intros [|c' s2];
    rewrite ?append_empty, ?append_cons, ?append_empty; intros Heq.
  - by simplify_eq.
  - injection Heq as <- ->. by apply dash_in_the_middle in Hd1.
  - injection Heq as -> <-. by apply dash_in_the_middle in Hd2.
  - injection Heq as -> Heq. by destruct (IH _ Heq) as [-> ->].
Qed.

(** Two generated ids are equal only for the same clock reading and the
    same chunk position. *)
Lemma assetId_inj now1 index1 now2 index2 :
  assetId now1 index1 = assetId now2 index2 → now1 = now2 ∧ index1 = index2.
Proof.
  unfold assetId. rewrite !append_cons, !append_empty. intros Heq.
  simplify_eq.
  apply split_at_last_dash in Heq as [Hnow Hindex];
    auto using dashFree_pretty_nat.
  split; by apply (inj pretty).
Qed.

Lemma synthesize_ids now k chunks x :
  x ∈ id <$> synthesize now k chunks →
  ∃ index, (k ≤ index)%nat ∧ x = assetId (now index) index.
Proof.
  revert k. induction chunks as [|c cs IH]; intros k; simpl.
  - by intros ?%elem_of_nil.
  - destruct (maps c); simpl.
    + intros [->|Hx]%elem_of_cons; [by exists k|].
      destruct (IH _ Hx) as (index & ? & ->). exists index. split; [lia|done].
    + intros Hx. destruct (IH _ Hx) as (index & ? & ->).
      exists index. split; [lia|done].
Qed.

(** The ids of one batch are pairwise distinct, whatever the clock does. *)
Lemma synthesize_NoDup now k chunks : NoDup (id <$> synthesize now k chunks).
Proof.
  revert k. induction chunks as [|c cs IH]; intros k; simpl.
  - constructor.
  - destruct (maps c); simpl; [|done]. constructor; [|done].
    intros (index & Hle & Heq)%synthesize_ids.
    apply assetId_inj in Heq as [_ ->]. lia.
Qed.

Lemma freshClock_step e w :
  NoDup (id <$> assets (state w)) → freshClock e w →
  NoDup (id <$> assets (state (step e w))).
Proof.
  intros Hw He.
  destruct (step_assets e w) as [->|(call&response&now&chunks&->&_&_&->)];
    [done|].
  rewrite fmap_app. apply NoDup_app. split_and!.
  - done.
  - intros x Hold (index & _ & ->)%synthesize_ids. by apply (He index index).
  - apply synthesize_NoDup.
Qed.

(** C5, as the code has it: the ids of one batch are pairwise distinct;
    two generated ids are equal exactly when they were made from the same
    clock reading at the same chunk position, and nothing is compared with
    the ids already stored; the ids of the store stay pairwise distinct along
    every run in which the clock, while a call is resumed, returns no value
    that is the timestamp of a stored id. *)
Theorem ids_unique_within_batch_and_for_fresh_clock :
  (∀ now k chunks, NoDup (id <$> synthesize now k chunks))
  ∧ (∀ now1 index1 now2 index2,
       assetId now1 index1 = assetId now2 index2
       ↔ now1 = now2 ∧ index1 = index2)
  ∧ (∀ es w, NoDup (id <$> assets (state w)) → disciplined freshClock es w →
       NoDup (id <$> assets (state (run es w)))).
Proof.
  split_and!.
  - apply synthesize_NoDup.
  - intros. split; [apply assetId_inj|]. by intros [-> ->].
  - intros es w Hw Hes.
    by apply (disciplined_invariant freshClock
                (λ w, NoDup (id <$> assets (state w))) freshClock_step es w).
Qed.

(** * The claims on concrete inputs *)

(** ** Where the code departs from a claim *)

(** C1 fails: with one call outstanding and the flag set, a further
    [handleSearch] call is not ignored: a second provider call is issued. *)
Lemma second_search_issued_while_first_in_flight :
  isSearching (state busy) = true
  ∧ inFlight busy = [prompt "bridges"]
  ∧ inFlight (step (Search "dams") busy) = [prompt "bridges"; prompt "dams"].
Proof. by vm_compute. Qed.

(** C5 fails: two responses handled at the same clock reading give their
    first assets the same id, and both stay in the store. *)
Lemma batches_of_one_instant_share_an_id :
  id <$> assets (state (run twoCalls started))
  = ["ai-1700000000000-0"; "ai-1700000000000-0"]
  ∧ ¬ NoDup (id <$> assets (state (run twoCalls started))).
Proof.
  assert (id <$> assets (state (run twoCalls started))
          = ["ai-1700000000000-0"; "ai-1700000000000-0"]) as Hids
    by (by vm_compute).
  split; [done|]. rewrite Hids. intros Hnodup.
  apply NoDup_cons in Hnodup as [Hnotin _]. apply Hnotin. by left.
Qed.

(** C6 fails: without a session, a request for the admin view leaves
    [admin], not [login], as the current tab. *)
Lemma admin_request_without_session_sets_admin :
  currentUser started = None
  ∧ currentTab (state (step (TabChange "admin") started)) = "admin"
  ∧ currentTab (state (step (TabChange "admin") started)) ≠ "login".
Proof. by vm_compute. Qed.

(** C7 fails: selecting an asset the store does not hold is not rejected;
    the selection becomes that asset. *)
Lemma selecting_a_stray_asset_is_accepted :
  assets (state started) = []
  ∧ selectedAsset (state started) = None
  ∧ selectedAsset (state (step (SelectAsset stray) started)) = Some stray
  ∧ ¬ selectionValid (state (step (SelectAsset stray) started)).
Proof.
  split_and!; try by vm_compute.
  assert (state (step (SelectAsset stray) started)
          = applyUpdate (state started) (setSelectedAsset (Some stray))) as ->
    by apply state_commit.
  unfold selectionValid. simpl. apply not_elem_of_nil.
Qed.


(** ** The theorems at concrete inputs *)

(** C1 at a run that searches again only after the first call settled. *)
Lemma search_single_when_gated_witness :
  (length (inFlight (run [ Search "bridges";
                           SearchSettled 0 Rejected sameInstant;
                           Search "dams" ] (mount [] ∅ false None))) ≤ 1)%nat.
Proof.
  apply (proj2 search_is_unguarded_and_single_when_gated).
  simpl. rewrite !state_commit. by vm_compute.
Defined.


(** C3 at a response of three chunks, the first without a payload. *)
Lemma usable_discovery_witness :
  ∃ first rest,
    synthesize sameInstant 0 [ungrounded; grounded (Some "Setu"); grounded None]
    = first :: rest
    ∧ name <$> (first :: rest)
      = titleOr
          <$> omap maps [ungrounded; grounded (Some "Setu"); grounded None]
    ∧ assets
        (state
           (step (SearchSettled 0
                    (Resolved (responseWith
                       [ungrounded; grounded (Some "Setu"); grounded None]))
                    sameInstant) busy))
      = assets (state busy) ++ first :: rest
    ∧ selectedAsset
        (state
           (step (SearchSettled 0
                    (Resolved (responseWith
                       [ungrounded; grounded (Some "Setu"); grounded None]))
                    sameInstant) busy))
      = Some first
    ∧ currentTab
        (state
           (step (SearchSettled 0
                    (Resolved (responseWith
                       [ungrounded; grounded (Some "Setu"); grounded None]))
                    sameInstant) busy))
      = "map".
Proof.
  apply (usable_discovery_appends_selects_and_shows_map busy 0
           (responseWith [ungrounded; grounded (Some "Setu"); grounded None])
           [ungrounded; grounded (Some "Setu"); grounded None] sameInstant).
  - reflexivity.
  - exists (grounded None). split; [|by eexists].
    apply elem_of_cons. right. apply elem_of_cons. right.
    apply elem_of_cons. by left.
  - vm_compute. lia.
Defined.


(** C5 at two discoveries into a store that holds an asset: the clock
    readings of the second response differ from the timestamp of the ids the
    first one left in the store. *)
Lemma ids_unique_for_fresh_clock_witness :
  NoDup (id <$> assets
           (state (run twoDiscoveries (mount [surveyed] ∅ false None)))).
Proof.
  apply (proj2 (proj2 ids_unique_within_batch_and_for_fresh_clock)).
  - apply NoDup_singleton.
  - unfold twoDiscoveries, disciplined. split_and!; try exact I.
    + intros k index.
      assert (id <$> assets
                (state (step (Search "bridges")
                          (mount [surveyed] ∅ false None)))
              = [id surveyed]) as -> by reflexivity.
      rewrite not_elem_of_cons. split; [|apply not_elem_of_nil].
      unfold assetId. by rewrite !append_cons.
    + intros k index.
      match goal with |- _ ∉ id <$> assets (state ?w) =>
        assert (id <$> assets (state w)
                = [ id surveyed; assetId 1700000000000 0;
                    assetId 1700000000000 1 ]) as -> by (by vm_compute)
      end.
      rewrite !not_elem_of_cons. split_and!.
      * unfold assetId. by rewrite !append_cons.
      * by intros [? _]%assetId_inj.
      * by intros [? _]%assetId_inj.
      * apply not_elem_of_nil.
Defined.

(** C6 without a session, with a viewer and with an administrator. *)
Lemma admin_tab_gate_witness :
  renderContent (currentUser (step (TabChange "admin") started))
    (state (step (TabChange "admin") started))
  = LoginPage (λ _, [setCurrentTab "admin"])
  ∧ renderContent
      (currentUser (step (TabChange "admin")
                      (withUser (Some {| role := "admin" |}) started)))
      (state (step (TabChange "admin")
                (withUser (Some {| role := "admin" |}) started)))
    = AdminDashboardPage.
Proof.
  split.
  - apply (proj1 (proj2 (admin_tab_is_gated_at_render started))). by left.
  - by apply (proj2 (proj2 (admin_tab_is_gated_at_render
                              (withUser (Some {| role := "admin" |}) started)))
                {| role := "admin" |}).
Defined.

(** C7 at a run that selects an asset of the store on the map and from the
    government portal. *)
Lemma selection_valid_witness :
  selectionValid
    (state (run [SelectAsset stray; TabChange "gov"; GovSelectAsset stray]
              (mount [stray] ∅ false None))).
Proof.
  apply (proj2 select_is_unchecked_and_valid_for_store_assets).
  - exact I.
  - simpl. rewrite !state_commit. simpl.
    split_and!; try done; apply elem_of_cons; by left.
Defined.

(** C8 at a run with one discovery: the asset of the initial store is in
    the final store. *)
Lemma store_only_grows_witness :
  stray ∈ assets
    (state (run [ Search "bridges"; SelectAsset stray;
                  SearchSettled 0
                    (Resolved (responseWith [grounded (Some "Setu")]))
                    sameInstant ] (mount [stray] ∅ false None))).
Proof.
  apply (proj1 (proj2 store_only_grows_by_append)).
  apply elem_of_cons. by left.
Defined.


(** C10 for a viewer who logs in on either login page. *)
Lemma login_success_witness :
  currentTab (state (step (LoginSuccess {| role := "viewer" |})
                       (step (TabChange "admin") started))) = "admin"
  ∧ renderContent (Some {| role := "viewer" |})
      (state (step (LoginSuccess {| role := "viewer" |})
                (step (TabChange "admin") started)))
    = LoginPage (λ _, [setCurrentTab "admin"])
  ∧ currentTab (state (step (LoginSuccess {| role := "viewer" |})
                         (step (TabChange "login") started)))
    = (if String.eqb (role {| role := "viewer" |}) "admin" then "admin"
       else "home").
Proof.
  split_and!.
  - by apply (proj1 login_success_by_origin).
  - by apply (proj1 (proj2 login_success_by_origin)).
  - by apply (proj2 (proj2 login_success_by_origin)).
Defined.

(** * Further properties of the component *)

(** ** The theme effect *)

Lemma themeSynced_commit w s : themeSynced w → themeSynced (commit w s).
Proof.
  unfold themeSynced, commit. intros [Hdoc Hsto].
  destruct (Bool.eqb (isDarkMode s) (isDarkMode (state w))) eqn:Hsame; simpl.
  - apply Bool.eqb_prop in Hsame. by rewrite Hsame.
  - split; [done|]. apply themeEffect_lookup.
Qed.

Lemma themeSynced_mount initialAssets storage prefersDark user :
  themeSynced (mount initialAssets storage prefersDark user).
Proof. split; [done|]. apply themeEffect_lookup. Qed.

Lemma themeSynced_step e w : themeSynced w → themeSynced (step e w).
Proof.
  intros Hw. destruct e; simpl; try (by apply themeSynced_commit); [|done|].
  - destruct (renderContent _ _); try done. by apply themeSynced_commit.
  - destruct (inFlight w !! call); [|done]. by apply themeSynced_commit.
Qed.

Lemma themeSynced_run es w : themeSynced w → themeSynced (run es w).
Proof.
  revert w. induction es as [|e es IH]; intros w Hw; [done|].
  change (run (e :: es) w) with (run es (step e w)).
  by apply IH, themeSynced_step.
Qed.

(** X1: at every point of every run of the mounted component the [dark]
    class of the document and the stored theme agree with [isDarkMode], so
    a reload at that point starts with the theme in effect, whatever the
    system preference is then. *)
Theorem theme_effect_keeps_document_and_storage_in_sync
    initialAssets storage prefersDark user es :
  documentDark (run es (mount initialAssets storage prefersDark user))
  = isDarkMode (state (run es (mount initialAssets storage prefersDark user)))
  ∧ localStorage (run es (mount initialAssets storage prefersDark user))
      !! "theme"
    = Some (if isDarkMode
                 (state (run es (mount initialAssets storage prefersDark user)))
            then "dark" else "light")
  ∧ ∀ prefersDark',
      initIsDarkMode true
        (localStorage (run es (mount initialAssets storage prefersDark user)))
        prefersDark'
      = isDarkMode
          (state (run es (mount initialAssets storage prefersDark user))).
Proof.
  destruct (themeSynced_run es _
              (themeSynced_mount initialAssets storage prefersDark user))
    as [Hdoc Hsto].
  split_and!; [done..|].
  intros prefersDark'. unfold initIsDarkMode. rewrite Hsto.
  by destruct (isDarkMode _).
Qed.

(** A handler run that leaves [isDarkMode] alone does not run the effect. *)
Lemma commit_same_theme w s :
  isDarkMode s = isDarkMode (state w) →
  isDarkMode (state (commit w s)) = isDarkMode (state w)
  ∧ localStorage (commit w s) = localStorage w
  ∧ documentDark (commit w s) = documentDark w.
Proof.
  intros Hsame. unfold commit. rewrite Hsame, Bool.eqb_reflx. by simpl.
Qed.

Lemma isDarkMode_settle o now s :
  isDarkMode (dispatch (handleSearch_settle o now) s) = isDarkMode s.
Proof. by settle_cases o now. Qed.

Lemma theme_frame e w :
  e ≠ ToggleTheme →
  isDarkMode (state (step e w)) = isDarkMode (state w)
  ∧ localStorage (step e w) = localStorage w
  ∧ documentDark (step e w) = documentDark w.
Proof.
  intros He. destruct e as [| | | | | | | | |u| | | |call o now]; simpl;
    try done; try (by apply commit_same_theme).
  - destruct (renderContent _ _) eqn:Hpage; try done.
    destruct (login_callbacks _ _ _ Hpage u) as [tab ->].
    by apply commit_same_theme.
  - by apply (commit_same_theme (withInFlight _ w)).
  - destruct (inFlight w !! call); [|done].
    apply (commit_same_theme (withInFlight _ w)), isDarkMode_settle.
Qed.

(** X2: no handler other than [toggleTheme] changes the theme, the stored
    theme or the class of the document; so the theme after a run is the
    initial one when [toggleTheme] was called an even number of times and
    the opposite one otherwise. *)
Theorem theme_changes_only_by_toggle :
  (∀ e w, e ≠ ToggleTheme →
     isDarkMode (state (step e w)) = isDarkMode (state w)
     ∧ localStorage (step e w) = localStorage w
     ∧ documentDark (step e w) = documentDark w)
  ∧ (∀ es w,
       isDarkMode (state (run es w))
       = if Nat.even (toggles es) then isDarkMode (state w)
         else negb (isDarkMode (state w))).
Proof.
  split; [apply theme_frame|].
  induction es as [|e es IH]; intros w; [done|].
  change (run (e :: es) w) with (run es (step e w)). rewrite IH.
  assert (e = ToggleTheme ∨ (e ≠ ToggleTheme ∧ toggles (e :: es) = toggles es))
    as [->|[He ->]] by (destruct e; auto).
  - rewrite state_toggle. simpl toggles. rewrite Nat.even_succ, <-Nat.negb_even.
    simpl. destruct (Nat.even _); simpl; [done|]. apply negb_involutive.
  - by destruct (theme_frame e w He) as [-> _].
Qed.

(** Two toggles in a row undo each other where the effect has run. *)
Lemma toggle_twice w :
  themeSynced w → step ToggleTheme (step ToggleTheme w) = w.
Proof.
  destruct w as [[tab sel store flag side dark] sto doc user calls].
  unfold themeSynced. simpl. intros [-> Hsto].
  unfold commit, themeEffect. destruct dark; simpl;
    by rewrite insert_insert_eq, insert_id.
Qed.

(** X3: at every point of every run of the mounted component, toggling the
    theme twice gives back the very same world: state, stored theme,
    document class and outstanding calls. *)
Theorem two_toggles_restore_the_world
    initialAssets storage prefersDark user es :
  run [ToggleTheme; ToggleTheme]
    (run es (mount initialAssets storage prefersDark user))
  = run es (mount initialAssets storage prefersDark user).
Proof. apply toggle_twice, themeSynced_run, themeSynced_mount. Qed.

(** ** What is rendered *)

Lemma renderContent_unknown user s :
  currentTab s ∉ knownTabs → renderContent user s = landing s.
Proof.
  unfold knownTabs. rewrite !not_elem_of_cons. intros Htab.
  destruct_and!. unfold renderContent.
  by repeat (rewrite (proj2 (String.eqb_neq _ _)) by done).
Qed.

(** X4: a tab [renderContent] has no case for shows the landing page, the
    very page the home tab shows, with the same two handlers; but the footer,
    which is shown on the home tab, is not shown then. *)
Theorem unknown_tab_shows_home_page_without_footer user s :
  currentTab s ∉ knownTabs →
  renderContent user s
  = renderContent user (applyUpdate s (setCurrentTab "home"))
  ∧ showsFooter s = false
  ∧ showsFooter (applyUpdate s (setCurrentTab "home")) = true.
Proof.
  intros Htab. split_and!.
  - by rewrite renderContent_unknown.
  - unfold showsFooter. apply bool_decide_eq_false. intros Hin. apply Htab.
    unfold knownTabs. rewrite !elem_of_cons, elem_of_nil in Hin.
    rewrite !elem_of_cons. destruct_or!; auto 12.
  - done.
Qed.

(** X5: the session is read for the admin tab only.  On every other tab the
    page does not depend on the user, so a login, a logout or a change of
    role reported by the session provider changes nothing of what is
    rendered. *)
Theorem session_matters_on_admin_tab_only :
  (∀ s user1 user2, currentTab s ≠ "admin" →
     renderContent user1 s = renderContent user2 s)
  ∧ (∀ w user, currentTab (state w) ≠ "admin" →
       renderContent (currentUser (step (SessionChange user) w))
         (state (step (SessionChange user) w))
       = renderContent (currentUser w) (state w)).
Proof.
  assert (∀ s user1 user2, currentTab s ≠ "admin" →
            renderContent user1 s = renderContent user2 s) as Hpage.
  { intros s user1 user2 Htab%String.eqb_neq. unfold renderContent.
    by rewrite Htab. }
  split; [done|]. intros w user Htab. by apply Hpage.
Qed.

(** Case analysis on one comparison of the tab in [renderContent]. *)
Ltac on_tab s t :=
  let H := fresh "Htab" in
  destruct (String.eqb (currentTab s) t) eqn:H;
  [ apply String.eqb_eq in H; rewrite H | apply String.eqb_neq in H ].

(** X6: the footer goes with the page: the map, the simulator, a login page
    and the admin dashboard are never rendered with it, the analysis, news,
    portal, initiatives and report pages always are, and the landing page is
    exactly when the tab is [home]. *)
Theorem footer_follows_the_page user s :
  match renderContent user s with
  | MapPage _ _ _ _ _ _ | SimulatorPage _ | LoginPage _ | AdminDashboardPage =>
      showsFooter s = false
  | AnalysisPage | NewsPage | GovPortalPage _ | InitiativesPage | ReportPage =>
      showsFooter s = true
  | LandingPage _ _ _ => showsFooter s = true ↔ currentTab s = "home"
  end.
Proof.
  unfold renderContent, landing, showsFooter.
  on_tab s "home"; [by vm_compute|].
  on_tab s "map"; [by vm_compute|].
  on_tab s "analysis"; [by vm_compute|].
  on_tab s "news"; [by vm_compute|].
  on_tab s "gov"; [by vm_compute|].
  on_tab s "login"; [by vm_compute|].
  on_tab s "admin"; [destruct (isAdmin user); by vm_compute|].
  on_tab s "initiatives"; [by vm_compute|].
  on_tab s "simulator"; [by vm_compute|].
  on_tab s "report"; [by vm_compute|].
  split; [|done]. intros Hin%bool_decide_eq_true.
  rewrite !elem_of_cons, elem_of_nil in Hin. by destruct_or!.
Qed.

(** ** The sidebar *)

Lemma isSidebarOpen_settle o now s :
  isSidebarOpen (dispatch (handleSearch_settle o now) s) = isSidebarOpen s.
Proof. by settle_cases o now. Qed.

(** X7: the sidebar is opened by the navbar button and closed by its own
    close handler, and by nothing else: choosing a tab (in the sidebar too),
    a search that starts or finishes, a selection, a login or a theme toggle
    leave it as it is. *)
Theorem sidebar_changes_only_by_its_handlers :
  (∀ e w, e ≠ OpenSidebar → e ≠ CloseSidebar →
     isSidebarOpen (state (step e w)) = isSidebarOpen (state w))
  ∧ (∀ w, isSidebarOpen (state (step OpenSidebar w)) = true
          ∧ isSidebarOpen (state (step CloseSidebar w)) = false
          ∧ currentTab (state (step CloseSidebar w)) = currentTab (state w)).
Proof.
  split.
  - intros e w Hopen Hclose.
    destruct e as [| | | | | | | | |u| | | |call o now]; simpl;
      rewrite ?state_commit; try done.
    + destruct (renderContent _ _) eqn:Hpage; try done.
      destruct (login_callbacks _ _ _ Hpage u) as [tab ->].
      by rewrite state_commit.
    + destruct (inFlight w !! call); [|done].
      rewrite state_commit. apply isSidebarOpen_settle.
  - intros w. simpl. by rewrite !state_commit.
Qed.

(** ** Overlapping calls *)

(** X8: [isSearching] does not count calls.  When two or more provider
    calls are outstanding and one of them settles, in whatever way, the flag
    is reset although a call is still outstanding. *)
Theorem flag_is_reset_while_calls_are_outstanding w call o now :
  (call < length (inFlight w))%nat →
  (2 ≤ length (inFlight w))%nat →
  isSearching (state (step (SearchSettled call o now) w)) = false
  ∧ (1 ≤ length (inFlight (step (SearchSettled call o now) w)))%nat.
Proof.
  intros Hcall Htwo. rewrite state_settled, inFlight_settled by done. split.
  - by settle_cases o now.
  - rewrite length_delete by by apply lookup_lt_is_Some. lia.
Qed.

(** What a settled call does to the store, for every outcome. *)
Lemma assets_settle o now s :
  assets (dispatch (handleSearch_settle o now) s) = assets s ++ batch o now.
Proof.
  destruct o as [response|]; simpl; [|by rewrite app_nil_r].
  destruct (merge_cases response now) as [Hnone|(chunks & Hchunks & _ & ->)].
  - rewrite Hnone. simpl. unfold merge in Hnone.
    destruct (chunksOf response) as [chunks|]; [|by rewrite app_nil_r].
    destruct (0 <? length chunks)%nat eqn:Hlen.
    + cbv zeta in Hnone.
      destruct (0 <? length (synthesize now 0 chunks))%nat eqn:Hnew; [done|].
      apply positive_length in Hnew. by rewrite Hnew, app_nil_r.
    + apply positive_length in Hlen. subst. by rewrite app_nil_r.
  - simpl. by rewrite Hchunks.
Qed.

Lemma assets_step e w :
  assets (state (step e w)) = assets (state w) ++ batches [e] w.
Proof.
  destruct e as [| | | | | | | | |u| | | |call o now]; simpl;
    rewrite ?state_commit, ?app_nil_r; try done.
  - destruct (renderContent _ _) eqn:Hpage; try done.
    destruct (login_callbacks _ _ _ Hpage u) as [tab ->].
    by rewrite state_commit.
  - destruct (inFlight w !! call); [|by rewrite app_nil_r].
    by rewrite state_commit, assets_settle.
Qed.

(** X9: the store after a run is the store before it followed by the
    batches of the calls that settled during the run, in the order in which
    they settled; nothing is lost or reordered when calls overlap or settle
    in another order than they were issued. *)
Theorem store_is_initial_store_and_settled_batches es w :
  assets (state (run es w)) = assets (state w) ++ batches es w.
Proof.
  revert w. induction es as [|e es IH]; intros w.
  - simpl. by rewrite app_nil_r.
  - change (run (e :: es) w) with (run es (step e w)).
    rewrite IH, assets_step, <-app_assoc. f_equal.
    simpl. by rewrite app_nil_r.
Qed.

(** ** What a batch holds *)

Lemma synthesize_elem now k chunks a :
  a ∈ synthesize now k chunks
  ↔ ∃ i m, chunks !! i = Some {| maps := Some m |}
           ∧ a = discovered (now (k + i)%nat) (k + i) m.
Proof.
  revert k. induction chunks as [|c cs IH]; intros k; simpl.
  - rewrite elem_of_nil. split; [done|]. by intros (i & m & ? & _).
  - assert (a ∈ synthesize now (S k) cs
            ↔ ∃ i m, (c :: cs) !! S i = Some {| maps := Some m |}
                     ∧ a = discovered (now (k + S i)%nat) (k + S i) m)
      as Hrest.
    { rewrite IH. by setoid_rewrite Nat.add_succ_r. }
    destruct c as [[m|]]; simpl.
    + rewrite elem_of_cons, Hrest. split.
      * intros [->|(i & m' & ? & ?)]; [|by exists (S i), m'].
        exists 0%nat, m. by rewrite Nat.add_0_r.
      * intros ([|i] & m' & Hi & ->); [left|right; eauto].
        simpl in Hi. simplify_eq. by rewrite Nat.add_0_r.
    + rewrite Hrest. split.
      * intros (i & m' & ? & ?). by exists (S i), m'.
      * intros ([|i] & m' & Hi & ->); [done|eauto].
Qed.

(** X10: an asset is in the batch of a response exactly when it was made
    from a chunk of the response that carries a grounding payload; its id
    holds the position of that chunk among all chunks of the response
    (chunks without a payload are counted) and the clock reading taken at
    that chunk. *)
Theorem batch_assets_come_from_grounded_chunks now chunks a :
  a ∈ synthesize now 0 chunks
  ↔ ∃ index m, chunks !! index = Some {| maps := Some m |}
               ∧ a = discovered (now index) index m.
Proof. apply synthesize_elem. Qed.

Lemma titleOr_not_empty m : titleOr m ≠ "".
Proof.
  unfold titleOr. destruct (title m) as [t|]; [|done].
  destruct (String.eqb t "") eqn:Ht; [done|]. by apply String.eqb_neq.
Qed.

Lemma assetId_prefix now index : ∃ rest, assetId now index = "ai-" +:+ rest.
Proof. by eexists. Qed.

Lemma batch_elem o now a :
  a ∈ batch o now → ∃ index m, a = discovered (now index) index m.
Proof.
  unfold batch. destruct o as [response|]; [|by intros ?%elem_of_nil].
  destruct (chunksOf response) as [chunks|]; [|by intros ?%elem_of_nil].
  intros (index & m & _ & ->)%synthesize_elem. eauto.
Qed.

(** X11: whatever the provider answers, an asset of a batch takes nothing
    from the response but its name: the name is the title of the payload,
    or [Discovered Infra] where the title is missing or empty, so it is
    never empty; the id starts with [ai-]; type, coordinates, risk score,
    zone and timeline are the same for all; two such assets with the same
    id and the same name are equal. *)
Theorem batch_assets_differ_in_id_and_name_only :
  (∀ o now a, a ∈ batch o now →
     name a ≠ ""
     ∧ (∃ rest, id a = "ai-" +:+ rest)
     ∧ type a = "Road"
     ∧ coordinates a = (decimal 205937 10000, decimal 789629 10000)
     ∧ riskScore a = 25%Z
     ∧ zone a = "Pan-India"
     ∧ timeline a = [])
  ∧ (∀ m, (title m = None ∨ title m = Some "" → titleOr m = "Discovered Infra")
          ∧ (∀ t, title m = Some t → t ≠ "" → titleOr m = t))
  ∧ (∀ o1 now1 o2 now2 a b, a ∈ batch o1 now1 → b ∈ batch o2 now2 →
       id a = id b → name a = name b → a = b).
Proof.
  split_and!.
  - intros o now a (index & m & ->)%batch_elem. simpl.
    split_and!; try done; [apply titleOr_not_empty|apply assetId_prefix].
  - intros m. unfold titleOr. split.
    + by intros [->| ->].
    + intros t -> Ht%String.eqb_neq. by rewrite Ht.
  - intros o1 now1 o2 now2 a b (i & m & ->)%batch_elem (j & m' & ->)%batch_elem.
    unfold discovered. simpl. by intros -> ->.
Qed.

(** ** A whole call *)

Lemma world_eq w1 w2 :
  state w1 = state w2 → localStorage w1 = localStorage w2 →
  documentDark w1 = documentDark w2 → currentUser w1 = currentUser w2 →
  inFlight w1 = inFlight w2 → w1 = w2.
Proof. destruct w1, w2. simpl. by intros -> -> -> -> ->. Qed.

Lemma currentUser_search_events e w :
  (∃ query, e = Search query) ∨ (∃ query, e = SearchThrew query)
  ∨ (∃ call o now, e = SearchSettled call o now) →
  currentUser (step e w) = currentUser w.
Proof.
  intros [[q ->]|[[q ->]|(call & o & now & ->)]]; simpl;
    rewrite ?currentUser_commit; try done.
  destruct (inFlight w !! call); [|done]. by rewrite currentUser_commit.
Qed.

Lemma inFlight_discover w query o now :
  inFlight (discover query o now w) = inFlight w.
Proof.
  unfold discover. rewrite inFlight_settled, inFlight_search.
  - by rewrite delete_middle, app_nil_r.
  - rewrite inFlight_search, length_app. simpl. lia.
Qed.

Lemma discover_frame w query o now :
  inFlight (discover query o now w) = inFlight w
  ∧ localStorage (discover query o now w) = localStorage w
  ∧ documentDark (discover query o now w) = documentDark w
  ∧ currentUser (discover query o now w) = currentUser w.
Proof.
  split; [apply inFlight_discover|]. unfold discover.
  destruct (theme_frame (Search query) w) as (_ & Hsto & Hdoc); [done|].
  destruct (theme_frame (SearchSettled (length (inFlight w)) o now)
              (step (Search query) w)) as (_ & -> & ->); [done|].
  split_and!; [done..|].
  rewrite !currentUser_search_events; [done|left; eauto|right; right; eauto].
Qed.

Lemma idle_state_restored s :
  isSearching s = false →
  dispatch [setIsSearching false] (dispatch handleSearch_begin s) = s.
Proof. destruct s. simpl. by intros ->. Qed.

(** X12: a whole [handleSearch] call, whatever its outcome, leaves the
    outstanding calls, local storage, the document class and the session as
    they were; started while [isSearching] is [false], a call that throws,
    is rejected or finds no usable payload gives back the very same world. *)
Theorem fruitless_search_restores_the_world :
  (∀ w query o now,
     inFlight (discover query o now w) = inFlight w
     ∧ localStorage (discover query o now w) = localStorage w
     ∧ documentDark (discover query o now w) = documentDark w
     ∧ currentUser (discover query o now w) = currentUser w)
  ∧ (∀ w query o now,
       isSearching (state w) = false → usable o = [] →
       discover query o now w = w ∧ step (SearchThrew query) w = w).
Proof.
  split; [apply discover_frame|].
  intros w query o now Hidle Hnone. split.
  - destruct (discover_frame w query o now) as (? & ? & ? & ?).
    apply world_eq; try done. rewrite state_discover.
    destruct o as [response|]; simpl handleSearch_settle.
    + rewrite (merge_nothing response now Hnone). by apply idle_state_restored.
    + by apply idle_state_restored.
  - destruct (theme_frame (SearchThrew query) w) as (_ & ? & ?); [done|].
    apply world_eq; try done.
    + simpl. rewrite state_commit. by apply idle_state_restored.
    + apply currentUser_search_events. right. left. eauto.
    + simpl. apply inFlight_commit.
Qed.

(** X13: when [handleSearch] is only called while [isSearching] is [false],
    the flag tells at every point of a run whether a provider call is
    outstanding. *)
Theorem flag_tells_outstanding_call_when_gated
    initialAssets storage prefersDark user es :
  disciplined gatedSearch es (mount initialAssets storage prefersDark user) →
  (isSearching (state (run es (mount initialAssets storage prefersDark user)))
   = true
   ↔ inFlight (run es (mount initialAssets storage prefersDark user)) ≠ []).
Proof.
  intros Hes.
  assert (flagCountsCalls (mount initialAssets storage prefersDark user))
    as Hmount by done.
  pose proof (disciplined_invariant gatedSearch flagCountsCalls
                flagCountsCalls_step es _ Hmount Hes) as Hinv.
  unfold flagCountsCalls in Hinv.
  destruct (isSearching _); split; try done.
  - intros _ Hnil. by rewrite Hnil in Hinv.
  - intros Hcalls. by apply nil_length_inv in Hinv.
Qed.

(** X14: a discovery cannot break the uniqueness of ids in a store that
    holds no id starting with [ai-]: from such a store with pairwise
    distinct ids, every single operation, the completion of a call
    included, gives a store with pairwise distinct ids. *)
Theorem ids_stay_unique_over_a_store_without_generated_ids e w :
  (∀ a rest, a ∈ assets (state w) → id a ≠ "ai-" +:+ rest) →
  NoDup (id <$> assets (state w)) →
  NoDup (id <$> assets (state (step e w))).
Proof.
  intros Hplain Hw. apply freshClock_step; [done|].
  destruct e; simpl; try done.
  intros k index (a & Heq & Ha)%list_elem_of_fmap.
  destruct (assetId_prefix (now k) index) as [rest Hrest].
  apply (Hplain a rest Ha). by rewrite <-Heq.
Qed.

(** ** Who sees the dashboard *)

Lemma isAdmin_true user :
  isAdmin user = true ↔ ∃ u, user = Some u ∧ role u = "admin".
Proof.
  destruct user as [u|]; simpl.
  - rewrite String.eqb_eq. split; [eauto|]. by intros (? & [= <-] & ?).
  - split; [done|]. by intros (? & ? & _).
Qed.

(** Both directions of a statement on the page of one tab. *)
Ltac page_facts :=
  repeat split; intros;
  repeat match goal with
         | H : ∃ _, _ |- _ => destruct H
         | H : _ ∧ _ |- _ => destruct H
         | H : _ ∨ _ |- _ => destruct H
         end;
  simplify_eq; eauto.

(** X15: in every state the admin dashboard is rendered exactly when the
    tab is [admin] and the session holds a user with the admin role; a login
    page is rendered exactly on the login tab and on the admin tab without
    such a session. *)
Theorem dashboard_only_for_admin_session user s :
  (renderContent user s = AdminDashboardPage
   ↔ currentTab s = "admin" ∧ ∃ u, user = Some u ∧ role u = "admin")
  ∧ ((∃ onLoginSuccess, renderContent user s = LoginPage onLoginSuccess)
     ↔ currentTab s = "login"
       ∨ (currentTab s = "admin" ∧ isAdmin user = false)).
Proof.
  rewrite <-isAdmin_true. unfold renderContent, landing.
  on_tab s "home"; [page_facts|].
  on_tab s "map"; [page_facts|].
  on_tab s "analysis"; [page_facts|].
  on_tab s "news"; [page_facts|].
  on_tab s "gov"; [page_facts|].
  on_tab s "login"; [page_facts|].
  on_tab s "admin"; [destruct (isAdmin user); page_facts|].
  on_tab s "initiatives"; [page_facts|].
  on_tab s "simulator"; [page_facts|].
  on_tab s "report"; [page_facts|].
  page_facts.
Qed.

(** ** The selection *)

(** X16: the selection is kept across tabs: it changes only when an asset
    is selected on the map or in the portal, when the panel is closed, and
    when a call settles with a batch, which selects the first asset of the
    batch; every other operation, and a call that settles without a batch,
    leaves it as it is. *)
Theorem selection_changes_only_by_select_close_and_batch e w :
  selectedAsset (state (step e w)) = selectedAsset (state w)
  ∨ (∃ a, (e = SelectAsset a ∨ e = GovSelectAsset a)
          ∧ selectedAsset (state (step e w)) = Some a)
  ∨ (e = ClosePanel ∧ selectedAsset (state (step e w)) = None)
  ∨ (∃ call o now first rest,
       e = SearchSettled call o now
       ∧ batch o now = first :: rest
       ∧ selectedAsset (state (step e w)) = Some first).
Proof.
  destruct e as [| | | | | |a| |a|u| | | |call o now]; simpl;
    rewrite ?state_commit; auto.
  - right. left. exists a. auto.
  - right. left. exists a. auto.
  - destruct (renderContent _ _) eqn:Hpage; auto.
    destruct (login_callbacks _ _ _ Hpage u) as [tab ->].
    rewrite state_commit. auto.
  - destruct (inFlight w !! call); [|auto]. rewrite state_commit.
    destruct o as [response|]; simpl; [|auto].
    destruct (merge_cases response now)
      as [->|(chunks & Hchunks & Hpay & ->)]; simpl; [auto|].
    destruct (synthesize now 0 chunks) as [|first rest] eqn:Hnew.
    { destruct Hpay. apply nil_length_inv.
      by rewrite <-(synthesize_length now 0), Hnew. }
    right. right. right. exists call, (Resolved response), now, first, rest.
    simpl. by rewrite Hchunks, Hnew.
Qed.

(** ** The further properties at concrete inputs *)

(** X2 at the opening of the sidebar. *)
Lemma theme_frame_witness :
  isDarkMode (state (step OpenSidebar started)) = isDarkMode (state started)
  ∧ localStorage (step OpenSidebar started) = localStorage started
  ∧ documentDark (step OpenSidebar started) = documentDark started.
Proof. by apply (proj1 theme_changes_only_by_toggle OpenSidebar started). Defined.

(** X4 at the tab [settings]. *)
Lemma unknown_tab_witness :
  renderContent None offTab
  = renderContent None (applyUpdate offTab (setCurrentTab "home"))
  ∧ showsFooter offTab = false
  ∧ showsFooter (applyUpdate offTab (setCurrentTab "home")) = true.
Proof.
  apply (unknown_tab_shows_home_page_without_footer None offTab).
  unfold knownTabs. rewrite !not_elem_of_cons.
  split_and!; try done. apply not_elem_of_nil.
Defined.

(** X5 on the home tab. *)
Lemma session_ignored_witness :
  renderContent (Some {| role := "admin" |}) (state started)
  = renderContent None (state started).
Proof. by apply (proj1 session_matters_on_admin_tab_only). Defined.

(** X7 at a tab chosen while the sidebar is open. *)
Lemma sidebar_stays_open_witness :
  isSidebarOpen (state (step (TabChange "map") (step OpenSidebar started)))
  = isSidebarOpen (state (step OpenSidebar started)).
Proof. by apply (proj1 sidebar_changes_only_by_its_handlers). Defined.

(** X8 at two outstanding calls, the older of which is rejected. *)
Lemma flag_reset_with_call_outstanding_witness :
  isSearching
    (state (step (SearchSettled 0 Rejected sameInstant)
              (step (Search "dams") busy))) = false
  ∧ (1 ≤ length (inFlight (step (SearchSettled 0 Rejected sameInstant)
                             (step (Search "dams") busy))))%nat.
Proof.
  apply (flag_is_reset_while_calls_are_outstanding
           (step (Search "dams") busy) 0 Rejected sameInstant);
    vm_compute; lia.
Defined.

(** X11 at the asset made from a payload without title. *)
Lemma batch_asset_fields_witness :
  name (discovered (sameInstant 0%nat) 0 {| title := None |}) ≠ ""
  ∧ (∃ rest,
       id (discovered (sameInstant 0%nat) 0 {| title := None |})
       = "ai-" +:+ rest)
  ∧ type (discovered (sameInstant 0%nat) 0 {| title := None |}) = "Road"
  ∧ coordinates (discovered (sameInstant 0%nat) 0 {| title := None |})
    = (decimal 205937 10000, decimal 789629 10000)
  ∧ riskScore (discovered (sameInstant 0%nat) 0 {| title := None |}) = 25%Z
  ∧ zone (discovered (sameInstant 0%nat) 0 {| title := None |}) = "Pan-India"
  ∧ timeline (discovered (sameInstant 0%nat) 0 {| title := None |}) = [].
Proof.
  apply (proj1 batch_assets_differ_in_id_and_name_only
           (Resolved (responseWith [grounded None])) sameInstant).
  simpl. apply elem_of_cons. by left.
Defined.

(** X12 at a rejected call from the idle component. *)
Lemma fruitless_search_witness :
  discover "bridges" Rejected sameInstant started = started
  ∧ step (SearchThrew "bridges") started = started.
Proof. by apply (proj2 fruitless_search_restores_the_world). Defined.

(** X13 at a run with one outstanding call. *)
Lemma flag_tells_outstanding_call_witness :
  isSearching (state (run [Search "bridges"] (mount [] ∅ false None))) = true
  ↔ inFlight (run [Search "bridges"] (mount [] ∅ false None)) ≠ [].
Proof.
  apply (flag_tells_outstanding_call_when_gated [] ∅ false None
           [Search "bridges"]).
  by simpl.
Defined.

(** X14 at a discovery into a store that holds one surveyed asset. *)
Lemma ids_stay_unique_witness :
  NoDup (id <$> assets
           (state (step (SearchSettled 0
                           (Resolved (responseWith [grounded None]))
                           sameInstant)
                     (step (Search "bridges")
                        (mount [surveyed] ∅ false None))))).
Proof.
  apply ids_stay_unique_over_a_store_without_generated_ids.
  - intros a rest. rewrite state_search. simpl.
    intros [->|[]%elem_of_nil]%elem_of_cons. by rewrite !append_cons.
  - rewrite state_search. simpl. apply NoDup_singleton.
Defined.
